(** * Demand-based traffic-light controller of Traffic_DMAS

    Shallow embedding of [controller.py], [trafficlight.py] and of the
    per-tick schedule of [grid.py] (demand-based system, [timer3]).

    The Mesa [BaseScheduler] steps agents in the order they were added:
    the twelve traffic lights (added by [add_traffic_lights]) first, then
    the controller (added by [add_controller]), then the cars.  Car
    movement and spawning live outside the modelled files; their effect on
    the lights is the grid occupancy that [car_present] queries, which is
    an input of every tick here. *)

From Stdlib Require Import ZArith List Bool Lia.
Import ListNotations.
Open Scope Z_scope.

(** ** Data *)

Inductive direction := east | west | north | south.

Definition direction_eqb (a b : direction) : bool :=
  match a, b with
  | east, east | west, west | north, north | south, south => true
  | _, _ => false
  end.

Lemma direction_eqb_eq a b : direction_eqb a b = true <-> a = b.
Proof. destruct a, b; simpl; split; congruence. Qed.

Inductive color := red | green.

(** The fields of [Traffic_light] that the demand-based system reads or
    writes ([time] and [turn] are only used by [timer1]/[timer2] and the
    renderer). *)
Record Traffic_light := mkLight {
  pos : Z * Z;
  light_direction : direction;
  light_color : color;
  demand : Z;
  waiting_time : Z;
  car_waiting : bool
}.

Record Controller := mkController {
  green_lights : direction;
  time : Z;
  delay_limit : Z
}.

(** [MultiGrid] occupancy by cars: [car_present x y]. *)
Definition occupancy := Z -> Z -> bool.

(** ** Traffic_light *)

Definition set_color (l : Traffic_light) (c : color) : Traffic_light :=
  mkLight (pos l) (light_direction l) c (demand l) (waiting_time l) (car_waiting l).

Definition set_waiting_time (l : Traffic_light) (w : Z) : Traffic_light :=
  mkLight (pos l) (light_direction l) (light_color l) (demand l) w (car_waiting l).

(** [update_variables(i)] *)
Definition update_variables (l : Traffic_light) (i : Z) : Traffic_light :=
  let l1 := mkLight (pos l) (light_direction l) (light_color l)
                    (demand l + 1) (waiting_time l) (car_waiting l) in
  if i =? 0
  then mkLight (pos l1) (light_direction l1) (light_color l1)
               (demand l1) (waiting_time l1 + 1) true
  else l1.

(** The cell inspected at offset [i] by [calculate_demand]. *)
Definition sensed_cell (d : direction) (p : Z * Z) (i : Z) : Z * Z :=
  match d with
  | east => (fst p - i, snd p)
  | west => (fst p + i, snd p)
  | south => (fst p, snd p + i)
  | north => (fst p, snd p - i)
  end.

(** [range(0, 10)] *)
Definition window : list Z := map Z.of_nat (seq 0 10).

(** [calculate_demand]: reset [demand] and [car_waiting], then scan the
    ten cells in front of the light. *)
Definition calculate_demand (occ : occupancy) (l : Traffic_light) : Traffic_light :=
  let l0 := mkLight (pos l) (light_direction l) (light_color l) 0 (waiting_time l) false in
  fold_left
    (fun acc i =>
       let '(x, y) := sensed_cell (light_direction acc) (pos acc) i in
       if occ x y then update_variables acc i else acc)
    window l0.

(** [timer3]: the light reads the controller found at cell (0, 0). *)
Definition timer3 (c : Controller) (l : Traffic_light) : Traffic_light :=
  if direction_eqb (light_direction l) (green_lights c) && (7 <? time c)
  then set_waiting_time (set_color l green) 0
  else set_color l red.

(** [Traffic_light.step] *)
Definition light_step (occ : occupancy) (c : Controller) (l : Traffic_light) : Traffic_light :=
  timer3 c (calculate_demand occ l).

(** ** Controller *)

Definition set_green_lights (c : Controller) (d : direction) : Controller :=
  mkController d (time c) (delay_limit c).

Definition set_time (c : Controller) (t : Z) : Controller :=
  mkController (green_lights c) t (delay_limit c).

Definition set_delay_limit (c : Controller) (dl : Z) : Controller :=
  mkController (green_lights c) (time c) dl.

(** Python dict with insertion order, as an association list. *)
Definition demand_map := list (direction * Z).

Definition dict_get (ds : demand_map) (k : direction) : Z :=
  match find (fun kv => direction_eqb (fst kv) k) ds with
  | Some (_, v) => v
  | None => 0   (* KeyError in Python; every key is present, see [combine_demands_shape] *)
  end.

(** [demands[k] += v] on an existing key keeps the key's position. *)
Fixpoint dict_add (ds : demand_map) (k : direction) (v : Z) : demand_map :=
  match ds with
  | [] => []
  | (k', v') :: ds' =>
      if direction_eqb k' k then (k', v' + v) :: ds' else (k', v') :: dict_add ds' k v
  end.

Definition initial_demands : demand_map := [(east, 0); (west, 0); (north, 0); (south, 0)].

(** [combine_demands] *)
Definition combine_demands (ls : list Traffic_light) : demand_map :=
  fold_left (fun ds l => dict_add ds (light_direction l) (demand l)) ls initial_demands.

(** Python's [max(iterable, key=...)]: keeps the first element and replaces
    it only by a strictly greater one. *)
Fixpoint max_from (best : direction) (bestv : Z) (ds : demand_map) : direction :=
  match ds with
  | [] => best
  | (k, v) :: ds' => if bestv <? v then max_from k v ds' else max_from best bestv ds'
  end.

(** [max(demands, key=demands.get)]; [None] is Python's ValueError on an
    empty dict. *)
Definition max_by_value (ds : demand_map) : option direction :=
  match ds with
  | [] => None
  | (k, v) :: ds' => Some (max_from k v ds')
  end.

Definition highest_demand (ls : list Traffic_light) : option direction :=
  max_by_value (combine_demands ls).

(** [Controller.car_waiting] *)
Fixpoint car_waiting_ctrl (g : direction) (ls : list Traffic_light) : bool :=
  match ls with
  | [] => true
  | l :: ls' =>
      if direction_eqb (light_direction l) g
      then if Bool.eqb (car_waiting l) false then false else car_waiting_ctrl g ls'
      else car_waiting_ctrl g ls'
  end.

(** [Controller.check_delay_limit] *)
Definition check_delay_limit (c : Controller) (ls : list Traffic_light) : Controller :=
  if 60 <? delay_limit c
  then if existsb (fun l => delay_limit c - 16 <? waiting_time l) ls
       then c
       else set_delay_limit c (delay_limit c - 16)
  else c.

(** [Controller.car_waiting_long]: returns the updated controller and the
    boolean result. *)
Fixpoint car_waiting_long (c : Controller) (ls : list Traffic_light) : Controller * bool :=
  match ls with
  | [] => (c, false)
  | l :: ls' =>
      if delay_limit c <? waiting_time l
      then let c1 := set_green_lights c (light_direction l) in
           if 8 <? time c1
           then (set_delay_limit (set_time c1 0) (delay_limit c1 + 16), true)
           else (c1, true)
      else car_waiting_long c ls'
  end.

(** [Controller.determine_light] *)
Definition determine_light (c : Controller) (ls : list Traffic_light) : Controller :=
  let c1 := set_time c (time c + 1) in
  let demands := combine_demands ls in
  match max_by_value demands with
  | None => c1   (* ValueError; unreachable, see [combine_demands_shape] *)
  | Some h =>
      let c2 := check_delay_limit c1 ls in
      let '(c3, fired) := car_waiting_long c2 ls in
      if negb fired then
        if dict_get demands (green_lights c3) <? dict_get demands h - 6 then
          if negb (car_waiting_ctrl (green_lights c3) ls)
          then set_time (set_green_lights c3 h) 0
          else c3
        else c3
      else c3
  end.

(** ** The model: one tick of [Grid.step] *)

Record Sim := mkSim {
  lights : list Traffic_light;
  controller : Controller
}.

(** [schedule.step()]: every light runs [calculate_demand] and [timer3]
    against the controller as it stands, then the controller runs
    [determine_light] on the updated lights. *)
Definition tick (occ : occupancy) (s : Sim) : Sim :=
  let ls := map (light_step occ (controller s)) (lights s) in
  mkSim ls (determine_light (controller s) ls).

Definition new_light (x y : Z) (d : direction) : Traffic_light :=
  mkLight (x, y) d red 0 0 false.

(** [add_traffic_lights] *)
Definition init_lights : list Traffic_light :=
  [new_light 9 9 east; new_light 9 10 east; new_light 9 11 east;
   new_light 15 13 west; new_light 15 14 west; new_light 15 15 west;
   new_light 13 9 north; new_light 14 9 north; new_light 15 9 north;
   new_light 9 15 south; new_light 10 15 south; new_light 11 15 south].

Definition init_controller : Controller := mkController east 0 60.

Definition init_sim : Sim := mkSim init_lights init_controller.

Inductive reachable : Sim -> Prop :=
| reach_init : reachable init_sim
| reach_tick occ s : reachable s -> reachable (tick occ s).

(** Runs driven by an occupancy per tick (tick numbers start at 1). *)
Fixpoint run (occs : nat -> occupancy) (n : nat) : Sim :=
  match n with
  | O => init_sim
  | S k => tick (occs n) (run occs k)
  end.

(** ** Fixed-time programs of [Traffic_light] ([timer1], [timer2]) *)

(** A light together with its own [time] counter, which only [timer1] and
    [timer2] use. *)
Record Timed_light := mkTimed {
  light_time : Z;
  light : Traffic_light
}.

(** [if self.direction == d: self.setColor(c)] *)
Definition color_if (d : direction) (c : color) (l : Traffic_light) : Traffic_light :=
  if direction_eqb (light_direction l) d then set_color l c else l.

(** [timer1]: every test reads the counter before the reset at 32. *)
Definition timer1 (tl : Timed_light) : Timed_light :=
  let t := light_time tl in
  let l := light tl in
  let l := if t =? 5 then color_if north red l else l in
  let l := if t =? 8 then color_if east green l else l in
  let l := if t =? 13 then color_if east red l else l in
  let l := if t =? 16 then color_if south green l else l in
  let l := if t =? 21 then color_if south red l else l in
  let l := if t =? 24 then color_if west green l else l in
  let l := if t =? 29 then color_if west red l else l in
  let '(l, t) := if t =? 32 then (color_if north green l, 0) else (l, t) in
  mkTimed (t + 1) l.

(** The body of [timer2] once [times[0]] .. [times[7]] are read. *)
Definition timer2_body (t0 t1 t2 t3 t4 t5 t6 t7 : Z) (tl : Timed_light) : Timed_light :=
  let t := light_time tl in
  let l := light tl in
  let l := if t =? t0 then color_if east green l else l in
  let l := if t =? t1 then color_if east red l else l in
  let l := if t =? t2 then color_if west green l else l in
  let l := if t =? t3 then color_if west red l else l in
  let l := if t =? t4 then color_if north green l else l in
  let l := if t =? t5 then color_if north red l else l in
  let l := if t =? t6 then color_if south green l else l in
  let '(l, t) := if t =? t7 then (color_if south red l, 0) else (l, t) in
  mkTimed (t + 1) l.

(** [timer2(times)]; [None] is the IndexError of a list shorter than 8. *)
Definition timer2 (times : list Z) (tl : Timed_light) : option Timed_light :=
  match nth_error times 0, nth_error times 1, nth_error times 2, nth_error times 3,
        nth_error times 4, nth_error times 5, nth_error times 6, nth_error times 7 with
  | Some t0, Some t1, Some t2, Some t3, Some t4, Some t5, Some t6, Some t7 =>
      Some (timer2_body t0 t1 t2 t3 t4 t5 t6 t7 tl)
  | _, _, _, _, _, _, _, _ => None
  end.

(** [n] successive calls of a [timer2]-driven step; [None] once a call
    raises. *)
Fixpoint run_timer2 (times : list Z) (n : nat) (tl : Timed_light) : option Timed_light :=
  match n with
  | O => Some tl
  | S k => match run_timer2 times k tl with
           | Some tl' => timer2 times tl'
           | None => None
           end
  end.

(** [Grid.calculate_on_time] *)
Definition calculate_on_time (flow : Z) : Z :=
  if flow <? 50 then 10 else 20.

(** [Grid.calculate_timer] on [self.flows]; [None] is the IndexError of a
    flow list shorter than 4. *)
Definition calculate_timer (flows : list Z) : option (list Z) :=
  let on_times := map calculate_on_time flows in
  match nth_error on_times 0, nth_error on_times 1, nth_error on_times 2,
        nth_error on_times 3 with
  | Some o0, Some o1, Some o2, Some o3 =>
      let first := 8 in
      let second := first + o0 in
      let third := second + 8 in
      let fourth := third + o1 in
      let fifth := fourth + 8 in
      let sixth := fifth + o2 in
      let seventh := sixth + 8 in
      let eighth := seventh + o3 in
      Some [first; second; third; fourth; fifth; sixth; seventh; eighth]
  | _, _, _, _ => None
  end.

(** ** The grid: background, lights, controller and cars on [MultiGrid] *)

Inductive bg_color := grey | darkslategrey | bg_green.

(** The agent classes placed on the grid (the [type] attribute). *)
Inductive agent_kind :=
| Background (c : bg_color)
| CarAgent (d : direction)
| LightAgent (d : direction)
| ControllerAgent.

Record agent := mkAgent {
  agent_id : Z;
  agent_pos : Z * Z;
  kind : agent_kind
}.

(** The part of [Grid] that placement and counting touch: the agents on
    [self.grid] in placement order, [self.id] and [self.car_counter]. *)
Record GridModel := mkGrid {
  placed : list agent;
  next_id : Z;
  car_counter : Z
}.

Definition grid_width : Z := 25.
Definition grid_height : Z := 25.

Definition pos_eqb (p q : Z * Z) : bool := (fst p =? fst q) && (snd p =? snd q).

(** The grid is [MultiGrid(25, 25, False)]: a 25 x 25 list of cells.  The
    model indexes cells by [agent_pos] and matches the real grid on cells
    with both coordinates in [0, 24] (see [in_grid]); a coordinate of 25 or
    more raises IndexError there, and a negative one wraps onto the far
    edge.  Statements about arbitrary cells therefore assume [in_grid] for
    the cells involved and for the agents already placed. *)

(** [get_cell_list_contents(pos)] *)
Definition cell_contents (g : GridModel) (p : Z * Z) : list agent :=
  filter (fun a => pos_eqb (agent_pos a) p) (placed g).

(** [is_cell_empty(pos)] *)
Definition is_cell_empty (g : GridModel) (p : Z * Z) : bool :=
  match cell_contents g p with [] => true | _ :: _ => false end.

(** [place_agent] followed by [self.id += 1]. *)
Definition place_new (g : GridModel) (p : Z * Z) (k : agent_kind) : GridModel :=
  mkGrid (placed g ++ [mkAgent (next_id g) p k]) (next_id g + 1) (car_counter g).

(** [add_background_agent(color, x, y)] *)
Definition add_background_agent (g : GridModel) (c : bg_color) (x y : Z) : GridModel :=
  place_new g (x, y) (Background c).

(** [range(begin, end)] *)
Definition range (b e : Z) : list Z :=
  map (fun k => b + Z.of_nat k) (seq 0 (Z.to_nat (e - b))).

(** The loop body shared by [add_road] and [add_barrier]. *)
Definition fill_cell (c : bg_color) (d : direction) (position : Z) (g : GridModel) (i : Z)
  : GridModel :=
  match d with
  | east => if is_cell_empty g (i, position) then add_background_agent g c i position else g
  | north => if is_cell_empty g (position, i) then add_background_agent g c position i else g
  | _ => g
  end.

(** [add_road(direction, position, begin, end)] *)
Definition add_road (g : GridModel) (d : direction) (position b e : Z) : GridModel :=
  fold_left (fill_cell grey d position) (range b e) g.

(** [add_roads] *)
Definition add_roads (g : GridModel) : GridModel :=
  let g := add_road g east 9 0 10 in
  let g := add_road g east 10 0 grid_width in
  let g := add_road g east 11 0 15 in
  let g := add_road g east 13 10 grid_width in
  let g := add_road g east 14 0 grid_width in
  let g := add_road g east 15 15 grid_width in
  let g := add_road g north 13 0 15 in
  let g := add_road g north 14 0 grid_height in
  let g := add_road g north 15 0 10 in
  let g := add_road g north 9 15 grid_height in
  let g := add_road g north 10 0 grid_height in
  add_road g north 11 10 grid_height.

(** [add_barrier(direction, position, length)] *)
Definition add_barrier (g : GridModel) (d : direction) (position length : Z) : GridModel :=
  fold_left (fill_cell darkslategrey d position) (range 0 length) g.

(** [add_barriers] *)
Definition add_barriers (g : GridModel) : GridModel :=
  let g := add_barrier g east 11 grid_width in
  let g := add_barrier g east 12 grid_width in
  let g := add_barrier g east 13 grid_width in
  let g := add_barrier g north 11 grid_height in
  let g := add_barrier g north 12 grid_height in
  add_barrier g north 13 grid_height.

(** [finish_background] *)
Definition finish_background (g : GridModel) : GridModel :=
  add_background_agent g bg_green 12 12.

(** [add_traffic_light(x, y, direction)] (scheduler and light list apart). *)
Definition add_traffic_light (g : GridModel) (x y : Z) (d : direction) : GridModel :=
  place_new g (x, y) (LightAgent d).

(** [add_traffic_lights] *)
Definition add_traffic_lights (g : GridModel) : GridModel :=
  fold_left (fun g l => add_traffic_light g (fst (pos l)) (snd (pos l)) (light_direction l))
            init_lights g.

(** [add_controller] *)
Definition add_controller (g : GridModel) : GridModel :=
  place_new g (0, 0) ControllerAgent.

(** The placements of [Grid.__init__]. *)
Definition grid_init : GridModel :=
  add_controller (add_traffic_lights (finish_background (add_barriers (add_roads (mkGrid [] 0 0))))).

Definition is_car (a : agent) : bool :=
  match kind a with CarAgent _ => true | _ => false end.

(** [add_car(direction, x, y, flow)] with [rand = random.randint(1, 100)]
    as an input. *)
Definition add_car (g : GridModel) (d : direction) (x y flow rand : Z) : GridModel :=
  if rand <? flow
  then if existsb is_car (cell_contents g (x, y)) then g else place_new g (x, y) (CarAgent d)
  else g.

(** The four exit cells read by [count_cars]. *)
Definition exit_cells : list (Z * Z) := [(0, 14); (10, 0); (24, 10); (14, 24)].

(** [count_cars] *)
Definition count_cars (g : GridModel) : GridModel :=
  mkGrid (placed g) (next_id g)
    (car_counter g
     + Z.of_nat (length (cell_contents g (0, 14)))
     + Z.of_nat (length (cell_contents g (10, 0)))
     + Z.of_nat (length (cell_contents g (24, 10)))
     + Z.of_nat (length (cell_contents g (14, 24))) - 4).

(** Summing demands per direction, for the statement about
    [combine_demands]. *)
Definition sum_Z (xs : list Z) : Z := fold_right Z.add 0 xs.

Definition direction_demand (ls : list Traffic_light) (d : direction) : Z :=
  sum_Z (map demand (filter (fun l => direction_eqb (light_direction l) d) ls)).

(** The green window of a direction under [timer1]: the counter values
    seen while that direction is green. *)
Definition timer1_window (d : direction) (t : Z) : Prop :=
  match d with
  | north => 1 <= t <= 5
  | east => 9 <= t <= 13
  | south => 17 <= t <= 21
  | west => 25 <= t <= 29
  end.

(** The green window of a direction under [timer2]. *)
Definition timer2_window (t0 t1 t2 t3 t4 t5 t6 t7 : Z) (d : direction) (t : Z) : Prop :=
  match d with
  | east => t0 < t <= t1
  | west => t2 < t <= t3
  | north => t4 < t <= t5
  | south => t6 < t <= t7
  end.

(** The cells an [add_road]/[add_barrier] loop visits: row [position]
    from [b] to [e - 1] for [east], column [position] for [north]. *)
Definition on_road (d : direction) (position b e : Z) (p : Z * Z) : bool :=
  match d with
  | east => (snd p =? position) && (b <=? fst p) && (fst p <? e)
  | north => (fst p =? position) && (b <=? snd p) && (snd p <? e)
  | _ => false
  end.

(** A cell inside the 25 x 25 grid, where [MultiGrid] neither raises nor
    wraps. *)
Definition in_grid (p : Z * Z) : bool :=
  (0 <=? fst p) && (fst p <? grid_width) && (0 <=? snd p) && (snd p <? grid_height).

(** Every agent of the grid stands on a cell inside it. *)
Definition agents_in_grid (g : GridModel) : bool :=
  forallb (fun a => in_grid (agent_pos a)) (placed g).

(** An agent standing on one of the four exit cells. *)
Definition at_exit (a : agent) : bool := existsb (pos_eqb (agent_pos a)) exit_cells.

(** Invariants of the two fixed-time timers. *)
Definition timer1_inv (tl : Timed_light) : Prop :=
  0 <= light_time tl <= 32 /\
  (light_color (light tl) = green -> timer1_window (light_direction (light tl)) (light_time tl)).

Definition timer2_inv (t0 t1 t2 t3 t4 t5 t6 t7 : Z) (tl : Timed_light) : Prop :=
  0 <= light_time tl <= t7 /\
  (light_color (light tl) = green ->
   timer2_window t0 t1 t2 t3 t4 t5 t6 t7 (light_direction (light tl)) (light_time tl)).

(** The cell a loop step [i] of [add_road]/[add_barrier] looks at. *)
Definition fill_target (d : direction) (position i : Z) (p : Z * Z) : bool :=
  match d with
  | east => pos_eqb (i, position) p
  | north => pos_eqb (position, i) p
  | _ => false
  end.

(** ** Concrete inputs *)

(** Seven cars queue in front of the north light at (13, 9) during tick 9
    only. *)
Definition occ_north_burst (n : nat) : occupancy := fun x y =>
  if (n =? 9)%nat then (x =? 13) && (2 <=? y) && (y <=? 8) else false.

(** A car stands on the stop line of the north light (13, 9) during ticks
    1 .. 70 and on the stop line of the west light (15, 13) from tick 2 on. *)
Definition occ_two_stop_lines (n : nat) : occupancy := fun x y =>
  ((x =? 13) && (y =? 9) && (n <=? 70)%nat)
  || ((x =? 15) && (y =? 13) && (2 <=? n)%nat).

(** A car stands on the stop line of the west light (15, 13) from tick 1
    on; from tick 55 on seven cars queue in front of the north light
    (13, 9). *)
Definition occ_late_north_queue (n : nat) : occupancy := fun x y =>
  ((x =? 15) && (y =? 13))
  || ((55 <=? n)%nat && (x =? 13) && (2 <=? y) && (y <=? 8)).

(** Lights after sensing: one car on the stop line of the east light
    (9, 9) and eight cars in front of the north light (13, 9). *)
Definition occ_east_one_north_eight : occupancy := fun x y =>
  ((x =? 9) && (y =? 9)) || ((x =? 13) && (1 <=? y) && (y <=? 8)).

Definition sensed_lights : list Traffic_light :=
  map (calculate_demand occ_east_one_north_eight) init_lights.

(** [init_lights] with the waiting time of the light at [p] set to [w]. *)
Definition lights_with_waiting (p : Z * Z) (w : Z) : list Traffic_light :=
  map (fun l => if (fst (pos l) =? fst p) && (snd (pos l) =? snd p)
                then set_waiting_time l w else l) init_lights.

(** Spec-side notions used in the statements. *)

(** Whether the cell at offset [i] in front of light [l] holds a car. *)
Definition occupied_at (occ : occupancy) (l : Traffic_light) (i : Z) : bool :=
  let '(x, y) := sensed_cell (light_direction l) (pos l) i in occ x y.

(** Number of occupied cells among offsets 0 .. 9. *)
Definition occupied_count (occ : occupancy) (l : Traffic_light) : Z :=
  Z.of_nat (length (filter (occupied_at occ l) window)).

(** Position of a key in the demand dict. *)
Definition rank (d : direction) : nat :=
  match d with east => 0 | west => 1 | north => 2 | south => 3 end%nat.

(** Result of the starvation override firing on light [l]. *)
Definition override_result (c : Controller) (l : Traffic_light) : Controller :=
  if 8 <? time c
  then mkController (light_direction l) 0 (delay_limit c + 16)
  else mkController (light_direction l) (time c) (delay_limit c).

(** ** General lemmas *)

Lemma run_reachable occs n : reachable (run occs n).
Proof. induction n; simpl; constructor; assumption. Qed.

Lemma dict_add_shape a b c d k v :
  exists a' b' c' d',
    dict_add [(east, a); (west, b); (north, c); (south, d)] k v
    = [(east, a'); (west, b'); (north, c'); (south, d')].
Proof. destruct k; simpl; eauto. Qed.

Lemma fold_dict_add_shape ls a b c d :
  exists a' b' c' d',
    fold_left (fun ds l => dict_add ds (light_direction l) (demand l)) ls
              [(east, a); (west, b); (north, c); (south, d)]
    = [(east, a'); (west, b'); (north, c'); (south, d')].
Proof.
  revert a b c d.
  induction ls as [|l ls IH]; intros a b c d; cbn [fold_left]; [eauto|].
  destruct (dict_add_shape a b c d (light_direction l) (demand l)) as (a' & b' & c' & d' & E).
  rewrite E. apply IH.
Qed.

Lemma combine_demands_shape ls :
  exists a b c d, combine_demands ls = [(east, a); (west, b); (north, c); (south, d)].
Proof. apply fold_dict_add_shape. Qed.

Lemma highest_demand_some ls : exists h, highest_demand ls = Some h.
Proof.
  unfold highest_demand.
  destruct (combine_demands_shape ls) as (a & b & c & d & E).
  rewrite E. simpl. eauto.
Qed.

Lemma check_delay_limit_set_time c t ls :
  check_delay_limit (set_time c t) ls = set_time (check_delay_limit c ls) t.
Proof.
  unfold check_delay_limit; simpl.
  destruct (60 <? delay_limit c); [|reflexivity].
  destruct (existsb (fun l => delay_limit c - 16 <? waiting_time l) ls); reflexivity.
Qed.

Lemma existsb_forallb_ltb (f : Traffic_light -> Z) (k : Z) ls :
  existsb (fun l => k <? f l) ls = negb (forallb (fun l => f l <=? k) ls).
Proof.
  induction ls as [|l ls IH]; simpl; [reflexivity|].
  rewrite IH. destruct (Z.ltb_spec k (f l)), (Z.leb_spec (f l) k);
    simpl; try reflexivity; lia.
Qed.

Lemma forallb_le_iff (f : Traffic_light -> Z) (k : Z) ls :
  forallb (fun l => f l <=? k) ls = true <-> (forall l, In l ls -> f l <= k).
Proof.
  rewrite forallb_forall. split; intros H l Hl; specialize (H l Hl).
  - apply Z.leb_le; assumption.
  - apply Z.leb_le; assumption.
Qed.

Lemma check_delay_limit_eq c ls :
  check_delay_limit c ls =
  if (60 <? delay_limit c)
       && forallb (fun l => waiting_time l <=? delay_limit c - 16) ls
  then set_delay_limit c (delay_limit c - 16)
  else c.
Proof.
  unfold check_delay_limit. rewrite existsb_forallb_ltb.
  destruct (60 <? delay_limit c); [|reflexivity].
  destruct (forallb (fun l => waiting_time l <=? delay_limit c - 16) ls); reflexivity.
Qed.

Lemma check_delay_limit_fields c ls :
  green_lights (check_delay_limit c ls) = green_lights c /\
  time (check_delay_limit c ls) = time c /\
  (delay_limit (check_delay_limit c ls) = delay_limit c \/
   (delay_limit (check_delay_limit c ls) = delay_limit c - 16 /\ 60 < delay_limit c /\
    forall l, In l ls -> waiting_time l <= delay_limit c - 16)).
Proof.
  rewrite check_delay_limit_eq.
  destruct (Z.ltb_spec 60 (delay_limit c)); simpl; [|auto].
  destruct (forallb (fun l => waiting_time l <=? delay_limit c - 16) ls) eqn:E;
    simpl; [|auto].
  rewrite forallb_le_iff in E. repeat split; auto.
Qed.

Lemma car_waiting_long_quiet c ls :
  (forall l, In l ls -> waiting_time l <= delay_limit c) ->
  car_waiting_long c ls = (c, false).
Proof.
  induction ls as [|l ls IH]; intros H; simpl; [reflexivity|].
  destruct (Z.ltb_spec (delay_limit c) (waiting_time l)).
  - specialize (H l (or_introl eq_refl)). lia.
  - apply IH. intros x Hx. apply H. right. assumption.
Qed.

Lemma car_waiting_long_first c pre l post :
  Forall (fun x => waiting_time x <= delay_limit c) pre ->
  delay_limit c < waiting_time l ->
  car_waiting_long c (pre ++ l :: post) = (override_result c l, true).
Proof.
  intros Hpre Hl. induction Hpre as [|x pre Hx Hpre IH]; simpl.
  - apply Z.ltb_lt in Hl. rewrite Hl. unfold override_result; simpl.
    destruct (8 <? time c); reflexivity.
  - destruct (Z.ltb_spec (delay_limit c) (waiting_time x)); [lia|]. exact IH.
Qed.

Lemma car_waiting_long_cases c ls :
  (car_waiting_long c ls = (c, false) /\
   forall l, In l ls -> waiting_time l <= delay_limit c) \/
  (exists pre l post,
      ls = pre ++ l :: post /\
      Forall (fun x => waiting_time x <= delay_limit c) pre /\
      delay_limit c < waiting_time l /\
      car_waiting_long c ls = (override_result c l, true)).
Proof.
  induction ls as [|l ls IH]; simpl.
  - left. split; [reflexivity | intros _ []].
  - destruct (Z.ltb_spec (delay_limit c) (waiting_time l)).
    + right. exists [], l, ls. repeat split; [constructor | lia |].
      unfold override_result; simpl. destruct (8 <? time c); reflexivity.
    + destruct IH as [[E Hall] | (pre & l' & post & E & Hpre & Hl' & Hr)].
      * left. split; [exact E|]. intros x [<-|Hx]; [lia | auto].
      * right. exists (l :: pre), l', post. subst ls.
        repeat split; [constructor; assumption | assumption | exact Hr].
Qed.

Lemma car_waiting_ctrl_eq g ls :
  car_waiting_ctrl g ls =
  negb (existsb (fun l => direction_eqb (light_direction l) g && negb (car_waiting l)) ls).
Proof.
  induction ls as [|l ls IH]; simpl; [reflexivity|].
  destruct (direction_eqb (light_direction l) g), (car_waiting l); simpl;
    first [reflexivity | assumption].
Qed.

(** [determine_light] once the maximum-demand direction is known. *)
Lemma determine_light_eq c ls h :
  highest_demand ls = Some h ->
  determine_light c ls =
  let c2 := check_delay_limit (set_time c (time c + 1)) ls in
  let '(c3, fired) := car_waiting_long c2 ls in
  if negb fired then
    if dict_get (combine_demands ls) (green_lights c3)
         <? dict_get (combine_demands ls) h - 6 then
      if negb (car_waiting_ctrl (green_lights c3) ls)
      then set_time (set_green_lights c3 h) 0
      else c3
    else c3
  else c3.
Proof. unfold determine_light, highest_demand. intros ->. reflexivity. Qed.

Lemma check_delay_limit_after_incr c ls :
  check_delay_limit (set_time c (time c + 1)) ls
  = mkController (green_lights c) (time c + 1) (delay_limit (check_delay_limit c ls)).
Proof.
  rewrite check_delay_limit_set_time.
  destruct (check_delay_limit_fields c ls) as (Hg & _ & _).
  unfold set_time. rewrite Hg. reflexivity.
Qed.

(** The two outcomes of [determine_light]: the starvation override fires on
    the first light above the (decayed) threshold, or the hysteresis test
    runs. *)
Lemma determine_light_cases c ls :
  let c2 := mkController (green_lights c) (time c + 1) (delay_limit (check_delay_limit c ls)) in
  (exists pre l post,
      ls = pre ++ l :: post /\
      Forall (fun x => waiting_time x <= delay_limit c2) pre /\
      delay_limit c2 < waiting_time l /\
      determine_light c ls = override_result c2 l) \/
  ((forall l, In l ls -> waiting_time l <= delay_limit c2) /\
   exists h, highest_demand ls = Some h /\
   determine_light c ls =
   if (dict_get (combine_demands ls) (green_lights c)
         <? dict_get (combine_demands ls) h - 6)
      && existsb (fun l => direction_eqb (light_direction l) (green_lights c)
                           && negb (car_waiting l)) ls
   then mkController h 0 (delay_limit c2)
   else c2).
Proof.
  intros c2.
  destruct (highest_demand_some ls) as [h Hh].
  rewrite (determine_light_eq c ls h Hh), check_delay_limit_after_incr.
  cbn zeta. fold c2.
  destruct (car_waiting_long_cases c2 ls)
    as [[E Hall] | (pre & l & post & E & Hpre & Hl & Hr)].
  - right. split; [exact Hall|]. exists h. split; [exact Hh|].
    rewrite E. cbn zeta. rewrite car_waiting_ctrl_eq, Bool.negb_involutive.
    change (green_lights c2) with (green_lights c). cbn [negb].
    destruct (dict_get (combine_demands ls) (green_lights c)
                <? dict_get (combine_demands ls) h - 6); cbn [andb]; [|reflexivity].
    destruct (existsb (fun l => direction_eqb (light_direction l) (green_lights c)
                                && negb (car_waiting l)) ls); reflexivity.
  - left. exists pre, l, post. repeat split; try assumption.
    rewrite Hr. reflexivity.
Qed.

(** [tick] colours a light green only for the direction the controller
    authorised before the tick, and only once its dwell counter is past 7. *)
Lemma tick_green_light occ s l :
  In l (lights (tick occ s)) -> light_color l = green ->
  light_direction l = green_lights (controller s) /\ 7 < time (controller s).
Proof.
  unfold tick. cbn [lights]. rewrite in_map_iff. intros (l0 & <- & _).
  unfold light_step, timer3.
  set (l1 := calculate_demand occ l0). clearbody l1.
  destruct (direction_eqb (light_direction l1) (green_lights (controller s))) eqn:Ed;
    destruct (Z.ltb_spec 7 (time (controller s))); cbn; try discriminate.
  intros _. apply direction_eqb_eq in Ed. split; assumption.
Qed.

(** One [determine_light] moves [delay_limit] by -16, 0 or +16. *)
Lemma delay_limit_step c ls :
  let d := delay_limit c in
  let d' := delay_limit (determine_light c ls) in
  d' = d \/
  (d' = d - 16 /\ 60 < d /\ forall l, In l ls -> waiting_time l <= d - 16) \/
  (d' = d + 16 /\ 8 < time c + 1 /\ exists l, In l ls /\ d < waiting_time l).
Proof.
  cbn zeta.
  destruct (check_delay_limit_fields c ls) as (_ & _ & Hd).
  destruct (determine_light_cases c ls)
    as [(pre & l & post & E & _ & Hl & ->) | (_ & h & _ & ->)];
    cbn [delay_limit] in *.
  - assert (Hin : In l ls) by (subst ls; apply in_or_app; right; left; reflexivity).
    assert (Hd0 : delay_limit (check_delay_limit c ls) = delay_limit c).
    { destruct Hd as [Hd | (Hd & _ & Hall)]; [exact Hd|].
      specialize (Hall l Hin). lia. }
    rewrite Hd0 in *. unfold override_result. cbn [time delay_limit].
    destruct (Z.ltb_spec 8 (time c + 1)); cbn [delay_limit].
    + right; right. repeat split; [lia | exists l; auto].
    + left. reflexivity.
  - match goal with |- context [if ?b then _ else _] => destruct b end;
      cbn [delay_limit]; destruct Hd as [Hd | Hd]; rewrite ?Hd; auto.
Qed.

Lemma init_lights_red l : In l init_lights -> light_color l = red.
Proof.
  intros H. unfold init_lights in H.
  repeat (destruct H as [<- | H]; [reflexivity |]). destruct H.
Qed.

Lemma forall_in_le (f : Traffic_light -> Z) (k : Z) ls :
  forallb (fun l => f l <=? k) ls = true -> Forall (fun l => f l <= k) ls.
Proof. intros H. apply Forall_forall, forallb_le_iff, H. Qed.

(** ** Claims *)

(** C1 (as amended).  In every reachable state all green lights share one
    direction; the lights of the next tick are green only for the
    direction the controller authorised at the start of that tick, with a
    dwell counter above 7.  The controller runs after the lights in the
    same tick and may change [green_lights] meanwhile. *)
Theorem green_lights_single_direction (s : Sim) (Hr : reachable s) :
  (forall l1 l2, In l1 (lights s) -> In l2 (lights s) ->
     light_color l1 = green -> light_color l2 = green ->
     light_direction l1 = light_direction l2) /\
  (forall occ l, In l (lights (tick occ s)) -> light_color l = green ->
     light_direction l = green_lights (controller s) /\ 7 < time (controller s)).
Proof.
  split.
  - destruct Hr as [|occ s0 _].
    + intros l1 l2 H1 _ Hg1. rewrite (init_lights_red l1 H1) in Hg1. discriminate.
    + intros l1 l2 H1 H2 Hg1 Hg2.
      destruct (tick_green_light occ s0 l1 H1 Hg1) as [E1 _].
      destruct (tick_green_light occ s0 l2 H2 Hg2) as [E2 _].
      congruence.
  - intros occ l. apply tick_green_light.
Qed.

Lemma green_lights_single_direction_witness :
  reachable (run occ_north_burst 9) /\
  ((forall l1 l2, In l1 (lights (run occ_north_burst 9)) ->
      In l2 (lights (run occ_north_burst 9)) ->
      light_color l1 = green -> light_color l2 = green ->
      light_direction l1 = light_direction l2) /\
   (forall occ l, In l (lights (tick occ (run occ_north_burst 9))) ->
      light_color l = green ->
      light_direction l = green_lights (controller (run occ_north_burst 9)) /\
      7 < time (controller (run occ_north_burst 9)))).
Proof.
  split; [apply run_reachable|].
  apply green_lights_single_direction. apply run_reachable.
Defined.

(** C1 counterexample.  After tick 9 of [occ_north_burst] the east lights
    are green while the controller already authorises north. *)
Lemma green_light_outlives_authorisation :
  reachable (run occ_north_burst 9) /\
  exists l, In l (lights (run occ_north_burst 9)) /\ light_color l = green /\
            light_direction l <> green_lights (controller (run occ_north_burst 9)).
Proof.
  split; [apply run_reachable|].
  exists (mkLight (9, 9) east green 0 0 false).
  split; [vm_compute; left; reflexivity|].
  split; [reflexivity | vm_compute; discriminate].
Qed.

(** C2 counterexample.  In the run [occ_two_stop_lines] the threshold is
    raised to 76 at tick 61 (north light) and again to 92 at tick 78 (west
    light). *)
Lemma delay_limit_reaches_92 :
  reachable (run occ_two_stop_lines 78) /\
  delay_limit (controller (run occ_two_stop_lines 78)) = 92.
Proof. split; [apply run_reachable | vm_compute; reflexivity]. Qed.

(** C2 (as amended).  In every reachable state [delay_limit] is 60 + 16 k
    for some k >= 0 (it starts at 60; a reachable run takes it to 92, see
    [delay_limit_reaches_92], so it is not confined to [60, 76]); one
    [determine_light] leaves it unchanged, lowers it by 16 only when it
    exceeds 60 and every light's waiting time is at most [delay_limit - 16],
    and raises it by 16 only when the starvation override fires with the
    incremented dwell counter above 8. *)
Theorem delay_limit_bounds_and_steps :
  (forall s, reachable s ->
     exists k, 0 <= k /\ delay_limit (controller s) = 60 + 16 * k) /\
  (forall c ls,
     let d := delay_limit c in
     let d' := delay_limit (determine_light c ls) in
     d' = d \/
     (d' = d - 16 /\ 60 < d /\ forall l, In l ls -> waiting_time l <= d - 16) \/
     (d' = d + 16 /\ 8 < time c + 1 /\ exists l, In l ls /\ d < waiting_time l)).
Proof.
  split; [|exact delay_limit_step].
  intros s Hr. induction Hr as [|occ s _ (k & Hk & IH)].
  - exists 0. split; reflexivity.
  - unfold tick. cbn [controller].
    destruct (delay_limit_step (controller s)
                (map (light_step occ (controller s)) (lights s)))
      as [E | [(E & Hgt & _) | (E & _)]]; cbn zeta in E; rewrite E, IH.
    + exists k. split; [exact Hk | reflexivity].
    + exists (k - 1). split; lia.
    + exists (k + 1). split; lia.
Qed.

Lemma delay_limit_bounds_and_steps_witness :
  reachable (run occ_two_stop_lines 78) /\
  exists k, 0 <= k /\ delay_limit (controller (run occ_two_stop_lines 78)) = 60 + 16 * k.
Proof.
  split; [apply run_reachable|].
  apply (proj1 delay_limit_bounds_and_steps). apply run_reachable.
Defined.

(** One [determine_light] call when the starvation override does not fire. *)
Lemma hysteresis_switch_step (c : Controller) (ls : list Traffic_light) (h : direction)
    (Hh : highest_demand ls = Some h)
    (Hno : forall l, In l ls -> waiting_time l <= delay_limit (check_delay_limit c ls)) :
  determine_light c ls =
  if (dict_get (combine_demands ls) (green_lights c)
        <? dict_get (combine_demands ls) h - 6)
     && existsb (fun l => direction_eqb (light_direction l) (green_lights c)
                          && negb (car_waiting l)) ls
  then mkController h 0 (delay_limit (check_delay_limit c ls))
  else mkController (green_lights c) (time c + 1) (delay_limit (check_delay_limit c ls)).
Proof.
  destruct (determine_light_cases c ls)
    as [(pre & l & post & E & _ & Hl & _) | (_ & h' & Hh' & ->)].
  - exfalso. cbn [delay_limit] in Hl.
    assert (Hin : In l ls) by (subst ls; apply in_or_app; right; left; reflexivity).
    specialize (Hno l Hin). lia.
  - rewrite Hh in Hh'. injection Hh' as <-. reflexivity.
Qed.

(** C3 (as amended).  In every tick of the simulation ([tick occ s], for
    any state and any occupancy) in which the starvation override does not
    fire (no sensed light's waiting time exceeds the threshold left by the
    decay step), the controller switches to the maximum-demand direction
    [h] of the sensed lights and resets the dwell counter exactly when
    (a) the current direction's demand is below [demand h - 6] and (b) at
    least one light of the current direction reports [car_waiting = false];
    otherwise it keeps [green_lights] and only increments the dwell
    counter. *)
Theorem hysteresis_switch (occ : occupancy) (s : Sim) (h : direction)
    (Hh : highest_demand (lights (tick occ s)) = Some h)
    (Hno : forall l, In l (lights (tick occ s)) ->
           waiting_time l <= delay_limit (check_delay_limit (controller s) (lights (tick occ s)))) :
  controller (tick occ s) =
  (let ls := lights (tick occ s) in
   let c := controller s in
   if (dict_get (combine_demands ls) (green_lights c)
         <? dict_get (combine_demands ls) h - 6)
      && existsb (fun l => direction_eqb (light_direction l) (green_lights c)
                           && negb (car_waiting l)) ls
   then mkController h 0 (delay_limit (check_delay_limit c ls))
   else mkController (green_lights c) (time c + 1) (delay_limit (check_delay_limit c ls))).
Proof.
  exact (hysteresis_switch_step (controller s) (lights (tick occ s)) h Hh Hno).
Qed.

(** The first tick from the initial state with one car on the east stop
    line at (9, 9) and eight cars in front of the north light: the
    override does not fire, and the tick switches to north. *)
Lemma hysteresis_switch_witness :
  highest_demand (lights (tick occ_east_one_north_eight init_sim)) = Some north /\
  controller (tick occ_east_one_north_eight init_sim) = mkController north 0 60.
Proof.
  assert (Hh : highest_demand (lights (tick occ_east_one_north_eight init_sim)) = Some north)
    by (vm_compute; reflexivity).
  assert (Hno : forall l, In l (lights (tick occ_east_one_north_eight init_sim)) ->
            waiting_time l
            <= delay_limit (check_delay_limit (controller init_sim)
                              (lights (tick occ_east_one_north_eight init_sim))))
    by (apply forallb_le_iff; vm_compute; reflexivity).
  split; [exact Hh|].
  rewrite (hysteresis_switch occ_east_one_north_eight init_sim north Hh Hno).
  vm_compute. reflexivity.
Defined.

(** C3 counterexample.  With one car on the east stop line at (9, 9) and
    eight cars in front of the north light, the override does not fire,
    condition (a) holds, and an east light reports [car_waiting = true];
    the controller still switches to north and resets the dwell counter. *)
Lemma switch_despite_car_waiting :
  highest_demand sensed_lights = Some north /\
  (forall l, In l sensed_lights ->
     waiting_time l <= delay_limit (check_delay_limit (mkController east 8 60) sensed_lights)) /\
  dict_get (combine_demands sensed_lights) east
    < dict_get (combine_demands sensed_lights) north - 6 /\
  (exists l, In l sensed_lights /\ light_direction l = east /\ car_waiting l = true) /\
  green_lights (determine_light (mkController east 8 60) sensed_lights) = north /\
  time (determine_light (mkController east 8 60) sensed_lights) = 0.
Proof.
  split; [vm_compute; reflexivity|].
  split; [apply forallb_le_iff; vm_compute; reflexivity|].
  split; [vm_compute; reflexivity|].
  split; [|split; vm_compute; reflexivity].
  exists (mkLight (9, 9) east red 1 1 true).
  split; [vm_compute; left; reflexivity | split; reflexivity].
Qed.

(** Where [determine_light] ends with a light above its threshold, the
    override fired in that call, on the first light above the threshold. *)
Lemma determine_light_above_threshold c ls l :
  In l ls -> delay_limit (determine_light c ls) < waiting_time l ->
  exists pre l0 post,
    ls = pre ++ l0 :: post /\
    Forall (fun x => waiting_time x <= delay_limit c) pre /\
    delay_limit c < waiting_time l0 /\
    green_lights (determine_light c ls) = light_direction l0.
Proof.
  intros Hin Hgt.
  destruct (check_delay_limit_fields c ls) as (_ & _ & Hd).
  destruct (determine_light_cases c ls)
    as [(pre & l0 & post & E & Hpre & Hl0 & Hr) | (Hall & h & _ & Hr)];
    cbn [delay_limit] in *.
  - assert (Hin0 : In l0 ls) by (subst ls; apply in_or_app; right; left; reflexivity).
    assert (Hd0 : delay_limit (check_delay_limit c ls) = delay_limit c).
    { destruct Hd as [Hd | (Hd & _ & Hle)]; [exact Hd|].
      specialize (Hle l0 Hin0). lia. }
    rewrite Hd0 in Hpre, Hl0.
    exists pre, l0, post. repeat split; try assumption.
    rewrite Hr. unfold override_result. destruct (8 <? _); reflexivity.
  - exfalso. specialize (Hall l Hin).
    rewrite Hr in Hgt.
    match type of Hgt with context [if ?b then _ else _] => destruct b end;
      cbn [delay_limit] in Hgt; lia.
Qed.

(** C4.  When the first light in scan order whose waiting time exceeds the
    threshold is [l], [determine_light] sets [green_lights] to [l]'s
    direction without consulting demands (the hysteresis test is skipped);
    if the incremented dwell counter exceeds 8 it is reset to 0 and the
    threshold rises by 16, otherwise both keep their values. *)
Theorem starvation_override (c : Controller) (ls pre post : list Traffic_light)
    (l : Traffic_light)
    (Hls : ls = pre ++ l :: post)
    (Hpre : Forall (fun x => waiting_time x <= delay_limit c) pre)
    (Hl : delay_limit c < waiting_time l) :
  determine_light c ls =
  if 8 <? time c + 1
  then mkController (light_direction l) 0 (delay_limit c + 16)
  else mkController (light_direction l) (time c + 1) (delay_limit c).
Proof.
  assert (Hin : In l ls) by (subst ls; apply in_or_app; right; left; reflexivity).
  destruct (highest_demand_some ls) as [h Hh].
  rewrite (determine_light_eq c ls h Hh).
  assert (Hc : check_delay_limit (set_time c (time c + 1)) ls = set_time c (time c + 1)).
  { rewrite check_delay_limit_eq. cbn [delay_limit set_time].
    replace (forallb (fun l => waiting_time l <=? delay_limit c - 16) ls) with false.
    - destruct (60 <? delay_limit c); reflexivity.
    - symmetry. apply not_true_iff_false. rewrite forallb_le_iff.
      intros Hall. specialize (Hall l Hin). lia. }
  assert (Hw : car_waiting_long (set_time c (time c + 1)) ls
               = (override_result (set_time c (time c + 1)) l, true))
    by (subst ls; apply car_waiting_long_first; assumption).
  cbn zeta. rewrite Hc, Hw. reflexivity.
Qed.

Lemma starvation_override_witness :
  determine_light (mkController east 3 60) (lights_with_waiting (13, 9) 61) =
  (if 8 <? 3 + 1
   then mkController north 0 (60 + 16)
   else mkController north (3 + 1) 60).
Proof.
  exact (starvation_override (mkController east 3 60) (lights_with_waiting (13, 9) 61)
           (firstn 6 (lights_with_waiting (13, 9) 61))
           (skipn 7 (lights_with_waiting (13, 9) 61))
           (set_waiting_time (new_light 13 9 north) 61)
           ltac:(vm_compute; reflexivity)
           ltac:(apply forall_in_le; vm_compute; reflexivity)
           ltac:(vm_compute; reflexivity)).
Defined.

(** C5 counterexample.  In the run [occ_late_north_queue] the controller
    switched to north at tick 55; the west light (15, 13) is above the
    threshold 60 after tick 61 and again after tick 62, because the
    override redirects [green_lights] to west but the light turns green
    only once the dwell counter exceeds 7. *)
Lemma waiting_above_threshold_two_ticks :
  reachable (run occ_late_north_queue 61) /\
  exists l1 l2,
    nth_error (lights (run occ_late_north_queue 61)) 3 = Some l1 /\
    nth_error (lights (tick (occ_late_north_queue 62%nat) (run occ_late_north_queue 61))) 3
      = Some l2 /\
    pos l1 = pos l2 /\
    delay_limit (controller (run occ_late_north_queue 61)) < waiting_time l1 /\
    delay_limit (controller (tick (occ_late_north_queue 62%nat) (run occ_late_north_queue 61)))
      < waiting_time l2.
Proof.
  split; [apply run_reachable|].
  exists (mkLight (15, 13) west red 1 61 true), (mkLight (15, 13) west red 1 62 true).
  repeat split; vm_compute; reflexivity.
Qed.

(** C5 (as amended).  A light may stay above the threshold over several
    ticks; what holds is that a tick ending with some light above the
    threshold fired the override in that tick: [green_lights] is then the
    direction of the first light, in scan order, whose waiting time
    exceeded the threshold held before the tick. *)
Theorem above_threshold_fires_override (occ : occupancy) (s : Sim) (l : Traffic_light)
    (Hin : In l (lights (tick occ s)))
    (Hgt : delay_limit (controller (tick occ s)) < waiting_time l) :
  exists pre l0 post,
    lights (tick occ s) = pre ++ l0 :: post /\
    Forall (fun x => waiting_time x <= delay_limit (controller s)) pre /\
    delay_limit (controller s) < waiting_time l0 /\
    green_lights (controller (tick occ s)) = light_direction l0.
Proof. exact (determine_light_above_threshold (controller s) _ l Hin Hgt). Qed.

Lemma above_threshold_fires_override_witness :
  exists pre l0 post,
    lights (tick (occ_late_north_queue 62%nat) (run occ_late_north_queue 61))
      = pre ++ l0 :: post /\
    Forall (fun x => waiting_time x <= delay_limit (controller (run occ_late_north_queue 61))) pre /\
    delay_limit (controller (run occ_late_north_queue 61)) < waiting_time l0 /\
    green_lights (controller (tick (occ_late_north_queue 62%nat) (run occ_late_north_queue 61)))
      = light_direction l0.
Proof.
  apply (above_threshold_fires_override (occ_late_north_queue 62%nat)
           (run occ_late_north_queue 61) (mkLight (15, 13) west red 1 62 true)).
  - vm_compute. right; right; right. left. reflexivity.
  - vm_compute. reflexivity.
Defined.

(** C6 counterexample.  With threshold 76 and the west light (15, 13)
    waiting exactly 60 (not strictly below 76 - 16), the decay step still
    lowers the threshold to 60, and so does the whole [determine_light]. *)
Lemma decay_at_exact_margin :
  (exists l, In l (lights_with_waiting (15, 13) 60) /\
             ~ (waiting_time l < delay_limit (mkController east 20 76) - 16)) /\
  delay_limit (check_delay_limit (mkController east 20 76) (lights_with_waiting (15, 13) 60)) = 60 /\
  delay_limit (determine_light (mkController east 20 76) (lights_with_waiting (15, 13) 60)) = 60.
Proof.
  split; [|split; vm_compute; reflexivity].
  exists (set_waiting_time (new_light 15 13 west) 60).
  split; [vm_compute; right; right; right; left; reflexivity | cbn; lia].
Qed.

(** C6 (as amended).  The decay step lowers the threshold by 16 exactly
    when it exceeds 60 and every light's waiting time is at most
    [threshold - 16]; otherwise it leaves it unchanged.  When it lowers it,
    the override cannot fire in the same call, so [determine_light] ends
    with the threshold lowered by exactly 16. *)
Theorem decay_step (c : Controller) (ls : list Traffic_light) :
  delay_limit (check_delay_limit c ls) =
  (if (60 <? delay_limit c)
      && forallb (fun l => waiting_time l <=? delay_limit c - 16) ls
   then delay_limit c - 16 else delay_limit c) /\
  (60 < delay_limit c -> (forall l, In l ls -> waiting_time l <= delay_limit c - 16) ->
   delay_limit (determine_light c ls) = delay_limit c - 16).
Proof.
  split.
  - rewrite check_delay_limit_eq.
    destruct (_ && _); reflexivity.
  - intros Hgt Hall.
    assert (Hd : delay_limit (check_delay_limit c ls) = delay_limit c - 16).
    { rewrite check_delay_limit_eq.
      apply Z.ltb_lt in Hgt. apply forallb_le_iff in Hall. rewrite Hgt, Hall.
      reflexivity. }
    destruct (determine_light_cases c ls)
      as [(pre & l0 & post & E & _ & Hl0 & _) | (_ & h & _ & ->)];
      cbn [delay_limit] in *.
    + assert (Hin0 : In l0 ls) by (subst ls; apply in_or_app; right; left; reflexivity).
      specialize (Hall l0 Hin0). lia.
    + destruct (_ && _); cbn [delay_limit]; exact Hd.
Qed.

Lemma decay_step_witness :
  delay_limit (determine_light (mkController east 20 76) init_lights) = 76 - 16.
Proof.
  apply (proj2 (decay_step (mkController east 20 76) init_lights)).
  - vm_compute. reflexivity.
  - apply forallb_le_iff. vm_compute. reflexivity.
Defined.

(** C7 counterexample.  Dwell counter 3, threshold 60, the north light
    (13, 9) waiting 61: the override moves [green_lights] from east to
    north and the dwell counter becomes 4, not 0. *)
Lemma override_keeps_dwell_counter :
  green_lights (determine_light (mkController east 3 60) (lights_with_waiting (13, 9) 61))
    <> green_lights (mkController east 3 60) /\
  time (determine_light (mkController east 3 60) (lights_with_waiting (13, 9) 61)) = 4.
Proof. split; vm_compute; [discriminate | reflexivity]. Qed.

(** C7 (as amended).  When [determine_light] changes [green_lights], the
    dwell counter is 0 afterwards, except when the change comes from the
    starvation override with the incremented dwell counter at most 8: then
    the counter keeps its incremented value. *)
Theorem direction_change_dwell (c : Controller) (ls : list Traffic_light)
    (Hch : green_lights (determine_light c ls) <> green_lights c) :
  time (determine_light c ls) = 0 \/
  (time (determine_light c ls) = time c + 1 /\ time c + 1 <= 8 /\
   exists l, In l ls /\ delay_limit (check_delay_limit c ls) < waiting_time l /\
             light_direction l = green_lights (determine_light c ls)).
Proof.
  destruct (determine_light_cases c ls)
    as [(pre & l0 & post & E & _ & Hl0 & Hr) | (_ & h & _ & Hr)];
    rewrite Hr in *; cbn [delay_limit] in *.
  - unfold override_result in *. cbn [time] in *.
    destruct (Z.ltb_spec 8 (time c + 1)); cbn [time green_lights]; [left; reflexivity|].
    right. repeat split; [lia|].
    exists l0. repeat split; [|exact Hl0].
    subst ls. apply in_or_app. right. left. reflexivity.
  - match goal with |- context [if ?b then _ else _] => destruct b end;
      cbn [time green_lights] in *; [left; reflexivity | congruence].
Qed.

Lemma direction_change_dwell_witness :
  time (determine_light (mkController east 3 60) (lights_with_waiting (13, 9) 61)) = 0 \/
  (time (determine_light (mkController east 3 60) (lights_with_waiting (13, 9) 61)) = 3 + 1 /\
   3 + 1 <= 8 /\
   exists l, In l (lights_with_waiting (13, 9) 61) /\
     delay_limit (check_delay_limit (mkController east 3 60) (lights_with_waiting (13, 9) 61))
       < waiting_time l /\
     light_direction l
       = green_lights (determine_light (mkController east 3 60) (lights_with_waiting (13, 9) 61))).
Proof.
  apply (direction_change_dwell (mkController east 3 60) (lights_with_waiting (13, 9) 61)).
  vm_compute. discriminate.
Defined.

Lemma sense_fold (occ : occupancy) (p : Z * Z) (d : direction) (col : color) (is : list Z) :
  forall dm w cw,
  fold_left
    (fun acc i =>
       let '(x, y) := sensed_cell (light_direction acc) (pos acc) i in
       if occ x y then update_variables acc i else acc)
    is (mkLight p d col dm w cw)
  = mkLight p d col
      (dm + Z.of_nat (length (filter (fun i => let '(x, y) := sensed_cell d p i in occ x y) is)))
      (w + Z.of_nat (length (filter (fun i => (i =? 0) && (let '(x, y) := sensed_cell d p i in occ x y)) is)))
      (cw || existsb (fun i => (i =? 0) && (let '(x, y) := sensed_cell d p i in occ x y)) is).
Proof.
  induction is as [|i is IH]; intros dm w cw; cbn [fold_left filter existsb length].
  - cbn [Z.of_nat]. rewrite !Z.add_0_r, orb_false_r. reflexivity.
  - cbn [light_direction pos].
    destruct (sensed_cell d p i) as [x y].
    destruct (occ x y); [unfold update_variables; destruct (i =? 0)|];
      cbn [andb orb length pos light_direction light_color demand waiting_time car_waiting];
      rewrite ?andb_false_r; cbn [orb length]; rewrite IH; f_equal; try lia; destruct cw; reflexivity.
Qed.

(** [calculate_demand] in closed form. *)
Lemma calculate_demand_eq occ l :
  calculate_demand occ l =
  mkLight (pos l) (light_direction l) (light_color l) (occupied_count occ l)
          (waiting_time l + if occupied_at occ l 0 then 1 else 0)
          (occupied_at occ l 0).
Proof.
  unfold calculate_demand. rewrite sense_fold.
  unfold occupied_count, occupied_at.
  f_equal.
  - f_equal. change window with [0; 1; 2; 3; 4; 5; 6; 7; 8; 9].
    cbn [filter Z.eqb andb].
    destruct (sensed_cell (light_direction l) (pos l) 0) as [x y].
    destruct (occ x y); reflexivity.
  - change window with [0; 1; 2; 3; 4; 5; 6; 7; 8; 9].
    cbn [existsb Z.eqb andb orb].
    destruct (sensed_cell (light_direction l) (pos l) 0) as [x y].
    destruct (occ x y); reflexivity.
Qed.

Lemma calculate_demand_direction occ l :
  light_direction (calculate_demand occ l) = light_direction l.
Proof. rewrite calculate_demand_eq. reflexivity. Qed.

(** C8.  Each light's per-tick step ([calculate_demand] then [timer3])
    colours it green exactly when its direction is the controller's
    [green_lights] and the controller's dwell counter exceeds 7, red
    otherwise, and a light coloured green has its waiting time reset to 0
    in that tick. *)
Theorem actuation (occ : occupancy) (s : Sim) (l : Traffic_light)
    (Hin : In l (lights s)) :
  In (light_step occ (controller s) l) (lights (tick occ s)) /\
  light_direction (light_step occ (controller s) l) = light_direction l /\
  (light_color (light_step occ (controller s) l) = green <->
   light_direction l = green_lights (controller s) /\ 7 < time (controller s)) /\
  (light_color (light_step occ (controller s) l) = red <->
   ~ (light_direction l = green_lights (controller s) /\ 7 < time (controller s))) /\
  (light_color (light_step occ (controller s) l) = green ->
   waiting_time (light_step occ (controller s) l) = 0).
Proof.
  split; [unfold tick; cbn [lights]; apply in_map; exact Hin|].
  unfold light_step, timer3.
  rewrite <- (calculate_demand_direction occ l).
  set (l1 := calculate_demand occ l). clearbody l1.
  destruct (direction_eqb (light_direction l1) (green_lights (controller s))) eqn:Ed;
    [apply direction_eqb_eq in Ed | rewrite <- not_true_iff_false, direction_eqb_eq in Ed];
    destruct (Z.ltb_spec 7 (time (controller s))); cbn;
    repeat split; intros;
    repeat match goal with H : _ /\ _ |- _ => destruct H end;
    try discriminate; try congruence; try lia; tauto.
Qed.

Lemma actuation_witness :
  In (light_step occ_east_one_north_eight (controller (run occ_north_burst 8))
                 (new_light 9 9 east))
     (lights (tick occ_east_one_north_eight (run occ_north_burst 8))) /\
  light_direction (light_step occ_east_one_north_eight (controller (run occ_north_burst 8))
                              (new_light 9 9 east)) = east /\
  (light_color (light_step occ_east_one_north_eight (controller (run occ_north_burst 8))
                           (new_light 9 9 east)) = green <->
   east = green_lights (controller (run occ_north_burst 8)) /\
   7 < time (controller (run occ_north_burst 8))) /\
  (light_color (light_step occ_east_one_north_eight (controller (run occ_north_burst 8))
                           (new_light 9 9 east)) = red <->
   ~ (east = green_lights (controller (run occ_north_burst 8)) /\
      7 < time (controller (run occ_north_burst 8)))) /\
  (light_color (light_step occ_east_one_north_eight (controller (run occ_north_burst 8))
                           (new_light 9 9 east)) = green ->
   waiting_time (light_step occ_east_one_north_eight (controller (run occ_north_burst 8))
                            (new_light 9 9 east)) = 0).
Proof.
  apply (actuation occ_east_one_north_eight (run occ_north_burst 8) (new_light 9 9 east)).
  vm_compute. left. reflexivity.
Defined.

Lemma filter_all_false {A} (f : A -> bool) (xs : list A) :
  (forall x, In x xs -> f x = false) -> filter f xs = [].
Proof.
  induction xs as [|x xs IH]; intros H; cbn [filter]; [reflexivity|].
  rewrite (H x (or_introl eq_refl)). apply IH. intros y Hy. apply H. right. exact Hy.
Qed.

(** C9.  After [calculate_demand] a light's demand is the number of
    occupied cells among the ten offsets in front of it (whatever its
    previous demand), [car_waiting] tells whether the stop-line cell
    (offset 0) is occupied, the waiting time grows by one exactly when it
    is, and position, direction and colour are untouched; with no car in
    the window, demand is 0 and [car_waiting] is false. *)
Theorem lane_sensor (occ : occupancy) (l : Traffic_light) :
  demand (calculate_demand occ l) = occupied_count occ l /\
  car_waiting (calculate_demand occ l) = occupied_at occ l 0 /\
  waiting_time (calculate_demand occ l)
    = waiting_time l + (if occupied_at occ l 0 then 1 else 0) /\
  pos (calculate_demand occ l) = pos l /\
  light_direction (calculate_demand occ l) = light_direction l /\
  light_color (calculate_demand occ l) = light_color l /\
  ((forall i, In i window -> occupied_at occ l i = false) ->
   demand (calculate_demand occ l) = 0 /\ car_waiting (calculate_demand occ l) = false).
Proof.
  rewrite calculate_demand_eq. cbn [demand car_waiting waiting_time pos light_direction light_color].
  do 6 (split; [reflexivity|]). intros Hnone. split.
  - unfold occupied_count. rewrite (filter_all_false _ _ Hnone). reflexivity.
  - apply Hnone. change window with [0; 1; 2; 3; 4; 5; 6; 7; 8; 9]. left. reflexivity.
Qed.

Lemma lane_sensor_witness :
  demand (calculate_demand occ_east_one_north_eight (new_light 9 15 south)) = 0 /\
  car_waiting (calculate_demand occ_east_one_north_eight (new_light 9 15 south)) = false.
Proof.
  apply (lane_sensor occ_east_one_north_eight (new_light 9 15 south)).
  intros i Hi. change window with [0; 1; 2; 3; 4; 5; 6; 7; 8; 9] in Hi.
  repeat (destruct Hi as [<- | Hi]; [reflexivity |]). destruct Hi.
Defined.

(** C10.  The demand dict always lists east, west, north, south in that
    order, and the direction chosen by [max(demands, key=demands.get)] has
    the largest demand and strictly more demand than every direction listed
    before it: ties go to the first maximal direction in that order. *)
Theorem tie_break_first_max (ls : list Traffic_light) :
  map fst (combine_demands ls) = [east; west; north; south] /\
  exists h, highest_demand ls = Some h /\
    (forall d, dict_get (combine_demands ls) d <= dict_get (combine_demands ls) h) /\
    (forall d, (rank d < rank h)%nat ->
       dict_get (combine_demands ls) d < dict_get (combine_demands ls) h).
Proof.
  unfold highest_demand.
  destruct (combine_demands_shape ls) as (a & b & c & d & E). rewrite E.
  split; [reflexivity|].
  cbn [max_by_value max_from].
  repeat match goal with |- context [?x <? ?y] => destruct (Z.ltb_spec x y) end;
    eexists; (split; [reflexivity|]);
    split; intros []; cbn; lia.
Qed.

Lemma tie_break_first_max_witness :
  map fst (combine_demands init_lights)
    = [east; west; north; south] /\
  exists h, highest_demand init_lights = Some h /\
    (forall d, dict_get (combine_demands init_lights) d
               <= dict_get (combine_demands init_lights) h) /\
    (forall d, (rank d < rank h)%nat ->
       dict_get (combine_demands init_lights) d
       < dict_get (combine_demands init_lights) h).
Proof. exact (tie_break_first_max init_lights). Defined.

(** ** Further properties of the code *)

Lemma fold_combine_get ls a b c e d :
  dict_get (fold_left (fun ds l => dict_add ds (light_direction l) (demand l)) ls
                      [(east, a); (west, b); (north, c); (south, e)]) d
  = dict_get [(east, a); (west, b); (north, c); (south, e)] d + direction_demand ls d.
Proof.
  revert a b c e.
  induction ls as [|l ls IH]; intros a b c e.
  - unfold direction_demand, sum_Z. cbn [filter map fold_right fold_left]. lia.
  - cbn [fold_left]. unfold direction_demand in *. cbn [filter].
    destruct (light_direction l); cbn [dict_add direction_eqb fst];
      rewrite IH; destruct d; cbn [direction_eqb map fold_right sum_Z dict_get find fst];
      unfold sum_Z; cbn [map fold_right]; lia.
Qed.

Lemma determine_light_time c ls :
  time (determine_light c ls) = 0 \/ time (determine_light c ls) = time c + 1.
Proof.
  destruct (determine_light_cases c ls)
    as [(pre & l0 & post & _ & _ & _ & ->) | (_ & h & _ & ->)].
  - unfold override_result. destruct (8 <? _); cbn [time]; auto.
  - match goal with |- context [if ?b then _ else _] => destruct b end; cbn [time]; auto.
Qed.

Lemma light_step_fields occ c l :
  pos (light_step occ c l) = pos l /\
  light_direction (light_step occ c l) = light_direction l /\
  demand (light_step occ c l) = occupied_count occ l /\
  car_waiting (light_step occ c l) = occupied_at occ l 0 /\
  (light_color (light_step occ c l) = green -> waiting_time (light_step occ c l) = 0) /\
  (waiting_time (light_step occ c l) = 0 \/
   waiting_time (light_step occ c l) = waiting_time l + (if occupied_at occ l 0 then 1 else 0)).
Proof.
  unfold light_step, timer3. rewrite calculate_demand_eq.
  cbn [light_direction].
  destruct (direction_eqb (light_direction l) (green_lights c) && (7 <? time c));
    cbn; repeat split; auto; discriminate.
Qed.

Lemma occupied_count_bounds occ l :
  0 <= occupied_count occ l <= 10 /\
  (occupied_at occ l 0 = true -> 1 <= occupied_count occ l).
Proof.
  unfold occupied_count. split.
  - pose proof (filter_length_le (occupied_at occ l) window) as H.
    change (length window) with 10%nat in H. lia.
  - intros H0.
    assert (Hin : In 0 (filter (occupied_at occ l) window)).
    { apply filter_In. split; [left; reflexivity | exact H0]. }
    destruct (filter (occupied_at occ l) window); [destruct Hin|].
    cbn [length]. lia.
Qed.

(** X1.  [combine_demands] sums, for each direction, the demands of the
    lights facing that direction (0 for a direction without lights, in
    particular on an empty light list). *)
Theorem combine_demands_sum (ls : list Traffic_light) (d : direction) :
  dict_get (combine_demands ls) d = direction_demand ls d.
Proof.
  unfold combine_demands, initial_demands. rewrite fold_combine_get.
  destruct d; reflexivity.
Qed.

(** X2.  Each [determine_light] either resets the dwell counter to 0 or
    increments it by exactly 1. *)
Theorem dwell_counter_step (c : Controller) (ls : list Traffic_light) :
  time (determine_light c ls) = 0 \/ time (determine_light c ls) = time c + 1.
Proof. apply determine_light_time. Qed.

(** X3.  After [determine_light], [green_lights] is the previous direction,
    the maximum-demand direction, or the direction of a light whose waiting
    time exceeds the threshold held before the call. *)
Theorem green_lights_origin (c : Controller) (ls : list Traffic_light) :
  green_lights (determine_light c ls) = green_lights c \/
  highest_demand ls = Some (green_lights (determine_light c ls)) \/
  (exists l, In l ls /\ delay_limit c < waiting_time l /\
             light_direction l = green_lights (determine_light c ls)).
Proof.
  destruct (check_delay_limit_fields c ls) as (_ & _ & Hd).
  destruct (determine_light_cases c ls)
    as [(pre & l0 & post & E & _ & Hl0 & ->) | (_ & h & Hh & ->)];
    cbn [delay_limit] in *.
  - assert (Hin0 : In l0 ls) by (subst ls; apply in_or_app; right; left; reflexivity).
    assert (Hd0 : delay_limit (check_delay_limit c ls) = delay_limit c).
    { destruct Hd as [Hd | (Hd & _ & Hle)]; [exact Hd|].
      specialize (Hle l0 Hin0). lia. }
    right; right. exists l0. split; [exact Hin0|]. split; [lia|].
    unfold override_result. destruct (8 <? _); reflexivity.
  - match goal with |- context [if ?b then _ else _] => destruct b end;
      cbn [green_lights]; auto.
Qed.

(** X4.  In every reachable state the model has the twelve lights built by
    [add_traffic_lights], at the same positions and facing the same
    directions, in the same order. *)
Theorem lights_layout_fixed (s : Sim) (Hr : reachable s) :
  map (fun l => (pos l, light_direction l)) (lights s)
  = map (fun l => (pos l, light_direction l)) init_lights.
Proof.
  induction Hr as [|occ s _ IH]; [reflexivity|].
  unfold tick. cbn [lights]. rewrite map_map, <- IH.
  apply map_ext. intros l.
  destruct (light_step_fields occ (controller s) l) as (Hp & Hd & _).
  rewrite Hp, Hd. reflexivity.
Qed.

Lemma lights_layout_fixed_witness :
  map (fun l => (pos l, light_direction l)) (lights (run occ_two_stop_lines 78))
  = map (fun l => (pos l, light_direction l)) init_lights.
Proof. apply lights_layout_fixed. apply run_reachable. Defined.

(** X5.  In every reachable state each light's demand lies in [0, 10], its
    waiting time is non-negative, a light reporting [car_waiting] has demand
    at least 1, a green light has waiting time 0, and the controller's
    dwell counter is non-negative. *)
Theorem light_fields_invariant (s : Sim) (Hr : reachable s) :
  Forall (fun l => 0 <= demand l <= 10 /\ 0 <= waiting_time l /\
                   (car_waiting l = true -> 1 <= demand l) /\
                   (light_color l = green -> waiting_time l = 0)) (lights s) /\
  0 <= time (controller s).
Proof.
  induction Hr as [|occ s _ [IHl IHc]].
  - split; [|cbn; lia].
    apply Forall_forall. intros l Hl. unfold init_lights in Hl.
    repeat (destruct Hl as [<- | Hl];
            [cbn; repeat split; try lia; intros; discriminate |]).
    destruct Hl.
  - split.
    + unfold tick. cbn [lights]. apply Forall_map.
      rewrite Forall_forall in IHl |- *. intros l Hl.
      destruct (IHl l Hl) as (_ & Hw & _).
      destruct (light_step_fields occ (controller s) l) as (_ & _ & Hdm & Hcw & Hg & Hwt).
      destruct (occupied_count_bounds occ l) as [Hb H1].
      rewrite Hdm, Hcw. repeat split; try lia.
      * destruct Hwt as [-> | ->]; [lia|]. destruct (occupied_at occ l 0); lia.
      * exact H1.
      * exact Hg.
    + unfold tick. cbn [controller].
      destruct (determine_light_time (controller s)
                  (map (light_step occ (controller s)) (lights s))) as [-> | ->]; lia.
Qed.

Lemma light_fields_invariant_witness :
  Forall (fun l => 0 <= demand l <= 10 /\ 0 <= waiting_time l /\
                   (car_waiting l = true -> 1 <= demand l) /\
                   (light_color l = green -> waiting_time l = 0))
         (lights (run occ_late_north_queue 61)) /\
  0 <= time (controller (run occ_late_north_queue 61)).
Proof. apply light_fields_invariant. apply run_reachable. Defined.

(** *** [timer1] and [timer2] *)

Lemma timer1_time tl :
  light_time (timer1 tl) = if light_time tl =? 32 then 1 else light_time tl + 1.
Proof. unfold timer1. destruct (light_time tl =? 32); reflexivity. Qed.

Lemma color_if_direction d c l : light_direction (color_if d c l) = light_direction l.
Proof. unfold color_if. destruct (direction_eqb _ d); reflexivity. Qed.

Lemma color_if_color d c l :
  light_color (color_if d c l) = if direction_eqb (light_direction l) d then c else light_color l.
Proof. unfold color_if. destruct (direction_eqb _ d); reflexivity. Qed.

(** Keeping [color_if] folded avoids unfolding the shared light of each
    [let] into every branch. *)
Ltac timer_finish :=
  cbn -[color_if]; rewrite ?color_if_direction, ?color_if_color;
  match goal with |- context [light_color ?l] => is_var l;
    destruct (light_direction l), (light_color l) end;
  cbn; intros [Ht Hg]; (split; [lia|]); intros Hc;
  first [discriminate | specialize (Hg Hc); cbn in Hg; lia | lia].

Lemma timer1_direction tl :
  light_direction (light (timer1 tl)) = light_direction (light tl).
Proof.
  unfold timer1.
  repeat match goal with |- context [if ?b then _ else _] => destruct b end;
    cbn [light]; rewrite ?color_if_direction; reflexivity.
Qed.

Lemma timer1_step tl : timer1_inv tl -> timer1_inv (timer1 tl).
Proof.
  destruct tl as [t l]. unfold timer1_inv, timer1. cbn [light_time light].
  repeat match goal with |- context [t =? ?k] => destruct (Z.eqb_spec t k) as [->|] end;
    timer_finish.
Qed.

Lemma timer1_iter_inv n tl : timer1_inv tl -> timer1_inv (Nat.iter n timer1 tl).
Proof. intros H. induction n; rewrite ?Nat.iter_succ; [exact H | apply timer1_step, IHn]. Qed.

Lemma timer1_iter_direction n tl :
  light_direction (light (Nat.iter n timer1 tl)) = light_direction (light tl).
Proof. induction n; rewrite ?Nat.iter_succ; [reflexivity | rewrite timer1_direction; exact IHn]. Qed.

Lemma timer1_iter_time n tl1 tl2 :
  light_time tl1 = light_time tl2 ->
  light_time (Nat.iter n timer1 tl1) = light_time (Nat.iter n timer1 tl2).
Proof.
  intros H. induction n; rewrite ?Nat.iter_succ; [exact H|].
  rewrite !timer1_time, IHn. reflexivity.
Qed.

Lemma timer1_windows_disjoint d1 d2 t :
  timer1_window d1 t -> timer1_window d2 t -> d1 = d2.
Proof. destruct d1, d2; cbn; intros; first [reflexivity | lia]. Qed.

Lemma timer2_body_time t0 t1 t2 t3 t4 t5 t6 t7 tl :
  light_time (timer2_body t0 t1 t2 t3 t4 t5 t6 t7 tl)
  = if light_time tl =? t7 then 1 else light_time tl + 1.
Proof. unfold timer2_body. destruct (light_time tl =? t7); reflexivity. Qed.

Lemma timer2_body_direction t0 t1 t2 t3 t4 t5 t6 t7 tl :
  light_direction (light (timer2_body t0 t1 t2 t3 t4 t5 t6 t7 tl))
  = light_direction (light tl).
Proof.
  unfold timer2_body.
  repeat match goal with |- context [if ?b then _ else _] => destruct b end;
    cbn [light]; rewrite ?color_if_direction; reflexivity.
Qed.

Lemma timer2_step t0 t1 t2 t3 t4 t5 t6 t7 tl :
  0 < t0 < t1 -> t1 < t2 < t3 -> t3 < t4 < t5 -> t5 < t6 < t7 ->
  timer2_inv t0 t1 t2 t3 t4 t5 t6 t7 tl ->
  timer2_inv t0 t1 t2 t3 t4 t5 t6 t7 (timer2_body t0 t1 t2 t3 t4 t5 t6 t7 tl).
Proof.
  intros O1 O2 O3 O4.
  destruct tl as [t l]. unfold timer2_inv, timer2_body. cbn [light_time light].
  repeat match goal with
         | |- context [?a =? ?b] =>
             let E := fresh "E" in
             destruct (Z.eqb_spec a b) as [E|E]; [first [exfalso; lia | subst t] |]
         end;
    timer_finish.
Qed.

Lemma run_timer2_iter t0 t1 t2 t3 t4 t5 t6 t7 n tl :
  run_timer2 [t0; t1; t2; t3; t4; t5; t6; t7] n tl
  = Some (Nat.iter n (timer2_body t0 t1 t2 t3 t4 t5 t6 t7) tl).
Proof. induction n; cbn [run_timer2 Nat.iter]; [reflexivity | rewrite IHn; reflexivity]. Qed.

Lemma timer2_iter_inv t0 t1 t2 t3 t4 t5 t6 t7 n tl :
  0 < t0 < t1 -> t1 < t2 < t3 -> t3 < t4 < t5 -> t5 < t6 < t7 ->
  timer2_inv t0 t1 t2 t3 t4 t5 t6 t7 tl ->
  timer2_inv t0 t1 t2 t3 t4 t5 t6 t7 (Nat.iter n (timer2_body t0 t1 t2 t3 t4 t5 t6 t7) tl).
Proof.
  intros O1 O2 O3 O4 H. induction n; rewrite ?Nat.iter_succ; [exact H|].
  apply timer2_step; assumption.
Qed.

Lemma timer2_iter_direction t0 t1 t2 t3 t4 t5 t6 t7 n tl :
  light_direction (light (Nat.iter n (timer2_body t0 t1 t2 t3 t4 t5 t6 t7) tl))
  = light_direction (light tl).
Proof.
  induction n; rewrite ?Nat.iter_succ; [reflexivity|].
  rewrite timer2_body_direction. exact IHn.
Qed.

Lemma timer2_iter_time t0 t1 t2 t3 t4 t5 t6 t7 n tl1 tl2 :
  light_time tl1 = light_time tl2 ->
  light_time (Nat.iter n (timer2_body t0 t1 t2 t3 t4 t5 t6 t7) tl1)
  = light_time (Nat.iter n (timer2_body t0 t1 t2 t3 t4 t5 t6 t7) tl2).
Proof.
  intros H. induction n; rewrite ?Nat.iter_succ; [exact H|].
  rewrite !timer2_body_time, IHn. reflexivity.
Qed.

Lemma calculate_on_time_cases f :
  (f < 50 /\ calculate_on_time f = 10) \/ (50 <= f /\ calculate_on_time f = 20).
Proof. unfold calculate_on_time. destruct (Z.ltb_spec f 50); [left | right]; auto. Qed.

Lemma calculate_timer_eq e w n s :
  calculate_timer [e; w; n; s] =
  Some [8; 8 + calculate_on_time e; 8 + calculate_on_time e + 8;
        8 + calculate_on_time e + 8 + calculate_on_time w;
        8 + calculate_on_time e + 8 + calculate_on_time w + 8;
        8 + calculate_on_time e + 8 + calculate_on_time w + 8 + calculate_on_time n;
        8 + calculate_on_time e + 8 + calculate_on_time w + 8 + calculate_on_time n + 8;
        8 + calculate_on_time e + 8 + calculate_on_time w + 8 + calculate_on_time n + 8
          + calculate_on_time s].
Proof. reflexivity. Qed.

(** X6.  Lights created red with counter 0 and driven in lockstep by
    [timer1] (the same number of calls each) are never green on two
    different directions at once. *)
Theorem timer1_lockstep_exclusive (n : nat) (l1 l2 : Traffic_light)
    (H1 : light_color l1 = red) (H2 : light_color l2 = red)
    (G1 : light_color (light (Nat.iter n timer1 (mkTimed 0 l1))) = green)
    (G2 : light_color (light (Nat.iter n timer1 (mkTimed 0 l2))) = green) :
  light_direction l1 = light_direction l2.
Proof.
  assert (I1 : timer1_inv (Nat.iter n timer1 (mkTimed 0 l1))).
  { apply timer1_iter_inv. split; [cbn; lia|]. cbn. rewrite H1. discriminate. }
  assert (I2 : timer1_inv (Nat.iter n timer1 (mkTimed 0 l2))).
  { apply timer1_iter_inv. split; [cbn; lia|]. cbn. rewrite H2. discriminate. }
  destruct I1 as [_ W1], I2 as [_ W2].
  specialize (W1 G1). specialize (W2 G2).
  rewrite timer1_iter_direction in W1, W2. cbn [light] in W1, W2.
  rewrite (timer1_iter_time n (mkTimed 0 l1) (mkTimed 0 l2) eq_refl) in W1.
  exact (timer1_windows_disjoint _ _ _ W1 W2).
Qed.

Lemma timer1_lockstep_exclusive_witness :
  light_direction (new_light 9 9 east) = light_direction (new_light 9 10 east).
Proof.
  apply (timer1_lockstep_exclusive 10 (new_light 9 9 east) (new_light 9 10 east));
    vm_compute; reflexivity.
Defined.

(** X7.  [timer1] cycles with period 32: after [n >= 1] calls starting from
    counter 0 the counter is [((n - 1) mod 32) + 1], so it stays in
    [1, 32]. *)
Theorem timer1_counter_cycle (n : nat) (l : Traffic_light) (Hn : (1 <= n)%nat) :
  light_time (Nat.iter n timer1 (mkTimed 0 l)) = (Z.of_nat n - 1) mod 32 + 1.
Proof.
  induction n as [|k IH]; [lia|].
  rewrite ?Nat.iter_succ. rewrite timer1_time.
  destruct k as [|k].
  - reflexivity.
  - rewrite IH by lia.
    replace (Z.of_nat (S (S k)) - 1) with ((Z.of_nat (S k) - 1) + 1) by lia.
    set (a := Z.of_nat (S k) - 1).
    rewrite Z.add_mod, (Z.mod_small 1 32) by lia.
    pose proof (Z.mod_pos_bound a 32 ltac:(lia)).
    destruct (Z.eqb_spec (a mod 32 + 1) 32) as [E|E].
    + rewrite E. reflexivity.
    + rewrite (Z.mod_small (a mod 32 + 1) 32) by lia. lia.
Qed.

Lemma timer1_counter_cycle_witness :
  light_time (Nat.iter 40 timer1 (mkTimed 0 (new_light 13 9 north))) = (Z.of_nat 40 - 1) mod 32 + 1.
Proof. apply timer1_counter_cycle. lia. Defined.

(** X8.  For flows [east; west; north; south], [calculate_timer] returns
    eight strictly increasing switching times: east turns green at 8, each
    green phase lasts [calculate_on_time] of its direction's flow (10 below
    50, 20 otherwise), every red-to-green pause lasts 8, and the cycle
    length lies in [72, 112]. *)
Theorem calculate_timer_schedule (e w n s : Z) :
  match calculate_timer [e; w; n; s] with
  | Some [t0; t1; t2; t3; t4; t5; t6; t7] =>
      t0 = 8 /\
      t1 - t0 = calculate_on_time e /\ t3 - t2 = calculate_on_time w /\
      t5 - t4 = calculate_on_time n /\ t7 - t6 = calculate_on_time s /\
      t2 - t1 = 8 /\ t4 - t3 = 8 /\ t6 - t5 = 8 /\
      0 < t0 < t1 /\ t1 < t2 < t3 /\ t3 < t4 < t5 /\ t5 < t6 < t7 /\
      72 <= t7 <= 112 /\
      (forall f, (f < 50 -> calculate_on_time f = 10) /\ (50 <= f -> calculate_on_time f = 20))
  | _ => False
  end.
Proof.
  rewrite calculate_timer_eq.
  destruct (calculate_on_time_cases e) as [[_ He] | [_ He]];
  destruct (calculate_on_time_cases w) as [[_ Hw] | [_ Hw]];
  destruct (calculate_on_time_cases n) as [[_ Hn] | [_ Hn]];
  destruct (calculate_on_time_cases s) as [[_ Hs] | [_ Hs]];
  rewrite He, Hw, Hn, Hs;
  (repeat split; try lia);
  intros; unfold calculate_on_time;
  first [rewrite (proj2 (Z.ltb_lt _ _)) by lia | rewrite (proj2 (Z.ltb_ge _ _)) by lia];
  reflexivity.
Qed.

(** X9.  Lights created red with counter 0 and driven in lockstep by
    [timer2] with the times of [calculate_timer] never raise and are never
    green on two different directions at once. *)
Theorem timer2_lockstep_exclusive (e w n s : Z) (times : list Z)
    (Ht : calculate_timer [e; w; n; s] = Some times)
    (k : nat) (l1 l2 : Traffic_light)
    (H1 : light_color l1 = red) (H2 : light_color l2 = red) :
  exists r1 r2,
    run_timer2 times k (mkTimed 0 l1) = Some r1 /\
    run_timer2 times k (mkTimed 0 l2) = Some r2 /\
    (light_color (light r1) = green -> light_color (light r2) = green ->
     light_direction l1 = light_direction l2).
Proof.
  pose proof (calculate_timer_schedule e w n s) as Hs.
  rewrite Ht in Hs.
  destruct times as [|t0 [|t1 [|t2 [|t3 [|t4 [|t5 [|t6 [|t7 [|]]]]]]]]]; try contradiction.
  destruct Hs as (_ & _ & _ & _ & _ & _ & _ & _ & O1 & O2 & O3 & O4 & _).
  rewrite !run_timer2_iter.
  eexists; eexists; split; [reflexivity|]; split; [reflexivity|].
  assert (Hinv : forall l, light_color l = red ->
            timer2_inv t0 t1 t2 t3 t4 t5 t6 t7
              (Nat.iter k (timer2_body t0 t1 t2 t3 t4 t5 t6 t7) (mkTimed 0 l))).
  { intros l Hl. apply timer2_iter_inv; try assumption.
    split; [cbn; lia|]. cbn. rewrite Hl. discriminate. }
  pose proof (fun l => timer2_iter_direction t0 t1 t2 t3 t4 t5 t6 t7 k (mkTimed 0 l)) as Hdir.
  pose proof (timer2_iter_time t0 t1 t2 t3 t4 t5 t6 t7 k (mkTimed 0 l1) (mkTimed 0 l2) eq_refl)
    as Htime.
  intros G1 G2.
  destruct (Hinv l1 H1) as [_ W1], (Hinv l2 H2) as [_ W2].
  specialize (W1 G1). specialize (W2 G2).
  rewrite Hdir in W1, W2. rewrite Htime in W1. cbn [light] in W1, W2.
  destruct (light_direction l1), (light_direction l2); cbn in W1, W2;
    first [reflexivity | lia].
Qed.

Lemma timer2_lockstep_exclusive_witness :
  exists r1 r2,
    run_timer2 [8; 18; 26; 46; 54; 64; 72; 92] 30 (mkTimed 0 (new_light 9 9 east)) = Some r1 /\
    run_timer2 [8; 18; 26; 46; 54; 64; 72; 92] 30 (mkTimed 0 (new_light 15 13 west)) = Some r2 /\
    (light_color (light r1) = green -> light_color (light r2) = green ->
     light_direction (new_light 9 9 east) = light_direction (new_light 15 13 west)).
Proof.
  apply (timer2_lockstep_exclusive 10 60 20 80); reflexivity.
Defined.

(** *** Grid placement and counting *)

Lemma pos_eqb_true p q : pos_eqb p q = true -> p = q.
Proof.
  destruct p as [a b], q as [c d]. unfold pos_eqb. cbn [fst snd].
  rewrite andb_true_iff, !Z.eqb_eq. intros [-> ->]. reflexivity.
Qed.

Lemma pos_eqb_refl p : pos_eqb p p = true.
Proof. destruct p as [a b]. unfold pos_eqb. cbn [fst snd]. rewrite !Z.eqb_refl. reflexivity. Qed.

Lemma cell_contents_place_new g q k p :
  cell_contents (place_new g q k) p
  = cell_contents g p ++ (if pos_eqb q p then [mkAgent (next_id g) q k] else []).
Proof.
  unfold cell_contents, place_new. cbn [placed]. rewrite filter_app.
  cbn [filter agent_pos]. destruct (pos_eqb q p); reflexivity.
Qed.

Lemma fill_cell_contents c d position g i p :
  cell_contents (fill_cell c d position g i) p
  = if fill_target d position i p && is_cell_empty g p
    then cell_contents g p ++ [mkAgent (next_id g) p (Background c)]
    else cell_contents g p.
Proof.
  destruct d; cbn [fill_cell fill_target andb]; try reflexivity;
  match goal with |- context [pos_eqb ?q p] => destruct (pos_eqb q p) eqn:P end;
  cbn [andb].
  1,3: apply pos_eqb_true in P; subst p;
       destruct (is_cell_empty g _); [|reflexivity];
       unfold add_background_agent; rewrite cell_contents_place_new, pos_eqb_refl; reflexivity.
  all: destruct (is_cell_empty g _); [|reflexivity];
       unfold add_background_agent; rewrite cell_contents_place_new, P, app_nil_r; reflexivity.
Qed.

Lemma fold_fill_cells c d position xs g p :
  if existsb (fun i => fill_target d position i p) xs && is_cell_empty g p
  then map kind (cell_contents (fold_left (fill_cell c d position) xs g) p) = [Background c]
  else cell_contents (fold_left (fill_cell c d position) xs g) p = cell_contents g p.
Proof.
  revert g. induction xs as [|i xs IH]; intros g; cbn [existsb fold_left andb]; [reflexivity|].
  specialize (IH (fill_cell c d position g i)).
  unfold is_cell_empty in *. rewrite !fill_cell_contents in IH. unfold is_cell_empty in IH.
  destruct (cell_contents g p) as [|a0 l0] eqn:C;
    destruct (fill_target d position i p);
    destruct (existsb (fun i => fill_target d position i p) xs);
    cbn [orb andb app] in *; try rewrite IH; reflexivity.
Qed.

Lemma in_range x b e : In x (range b e) <-> b <= x < e.
Proof.
  unfold range. rewrite in_map_iff. split.
  - intros (k & <- & Hk). apply in_seq in Hk. lia.
  - intros H. exists (Z.to_nat (x - b)). split; [lia|]. apply in_seq. lia.
Qed.

Lemma existsb_fill_target d position b e p :
  existsb (fun i => fill_target d position i p) (range b e) = on_road d position b e p.
Proof.
  apply eq_true_iff_eq. rewrite existsb_exists.
  destruct p as [px py]. destruct d; cbn [fill_target on_road fst snd];
    try (split; [intros (x & _ & H); discriminate | discriminate]);
    rewrite !andb_true_iff, Z.eqb_eq, Z.leb_le, Z.ltb_lt; split.
  - intros (x & Hx & Hp). apply in_range in Hx. apply pos_eqb_true in Hp.
    injection Hp as -> ->. lia.
  - intros [[-> Hb] He]. exists px. split; [apply in_range; lia | apply pos_eqb_refl].
  - intros (x & Hx & Hp). apply in_range in Hx. apply pos_eqb_true in Hp.
    injection Hp as -> ->. lia.
  - intros [[-> Hb] He]. exists py. split; [apply in_range; lia | apply pos_eqb_refl].
Qed.

Lemma count_below b n f :
  length (filter (fun r => r <? f) (map (fun k => b + Z.of_nat k) (seq 0 n)))
  = Z.to_nat (Z.min (Z.max (f - b) 0) (Z.of_nat n)).
Proof.
  induction n as [|n IH]; [cbn; lia|].
  rewrite seq_S, map_app, filter_app, length_app, IH. cbn [map filter].
  destruct (Z.ltb_spec (b + Z.of_nat (0 + n)) f); cbn [length]; lia.
Qed.

Lemma existsb_false_filter {A} (f : A -> bool) xs : existsb f xs = false -> filter f xs = [].
Proof.
  induction xs as [|x xs IH]; cbn [existsb filter]; [reflexivity|].
  destruct (f x); [discriminate | exact IH].
Qed.

Lemma grid_init_exit_cells q :
  In q exit_cells -> length (cell_contents grid_init q) = 1%nat.
Proof.
  intros Hq. repeat (destruct Hq as [<- | Hq]; [vm_compute; reflexivity|]). destruct Hq.
Qed.

Lemma at_exit_count (extra : list agent) :
  length (filter at_exit extra)
  = (length (filter (fun a => pos_eqb (agent_pos a) (0, 14)%Z) extra)
     + length (filter (fun a => pos_eqb (agent_pos a) (10, 0)%Z) extra)
     + length (filter (fun a => pos_eqb (agent_pos a) (24, 10)%Z) extra)
     + length (filter (fun a => pos_eqb (agent_pos a) (14, 24)%Z) extra))%nat.
Proof.
  induction extra as [|a extra IH]; [reflexivity|].
  cbn [filter]. unfold at_exit at 1. cbn [existsb exit_cells].
  rewrite orb_false_r.
  destruct (pos_eqb (agent_pos a) (0, 14)) eqn:P1,
           (pos_eqb (agent_pos a) (10, 0)) eqn:P2,
           (pos_eqb (agent_pos a) (24, 10)) eqn:P3,
           (pos_eqb (agent_pos a) (14, 24)) eqn:P4;
    cbn [orb length]; rewrite ?IH;
    repeat match goal with H : pos_eqb _ _ = true |- _ => apply pos_eqb_true in H end;
    try congruence; lia.
Qed.

(** X10.  Inside the grid, [add_road] and [add_barrier] only fill empty
    cells on their segment: a cell on the segment that was empty ends up
    with exactly one background agent of the loop's colour (grey for a
    road, darkslategrey for a barrier); every other cell, and every cell
    that already held an agent, keeps its contents.  Directions other than
    [east] and [north] change nothing.  The segment, the cell and the
    agents already placed lie in the 25 x 25 grid. *)
Theorem road_and_barrier_cells (g : GridModel) (d : direction) (position b e : Z) (p : Z * Z)
    (Hg : agents_in_grid g = true)
    (Hpos : 0 <= position < grid_width) (Hb : 0 <= b) (He : e <= grid_width)
    (Hp : in_grid p = true) :
  (if on_road d position b e p && is_cell_empty g p
   then map kind (cell_contents (add_road g d position b e) p) = [Background grey]
   else cell_contents (add_road g d position b e) p = cell_contents g p) /\
  (if on_road d position 0 e p && is_cell_empty g p
   then map kind (cell_contents (add_barrier g d position e) p) = [Background darkslategrey]
   else cell_contents (add_barrier g d position e) p = cell_contents g p).
Proof.
  split.
  - unfold add_road. rewrite <- existsb_fill_target. apply fold_fill_cells.
  - unfold add_barrier. rewrite <- existsb_fill_target. apply fold_fill_cells.
Qed.

Lemma road_and_barrier_cells_witness :
  map kind (cell_contents (add_road (mkGrid [] 0 0) east 9 0 10) (3, 9)) = [Background grey] /\
  map kind (cell_contents (add_barrier (mkGrid [] 0 0) east 9 10) (3, 9))
  = [Background darkslategrey].
Proof.
  exact (road_and_barrier_cells (mkGrid [] 0 0) east 9 0 10 (3, 9)
           eq_refl ltac:(unfold grid_width; lia) ltac:(lia) ltac:(unfold grid_width; lia)
           eq_refl).
Defined.

(** X11.  On a grid holding the agents of [Grid.__init__] followed by any
    further agents, [count_cars] raises [car_counter] by exactly the number
    of further agents on the four exit cells: the [- 4] cancels the one
    road agent each exit cell holds after initialisation. *)
Theorem count_cars_after_init (extra : list agent) (i cc : Z) :
  car_counter (count_cars (mkGrid (placed grid_init ++ extra) i cc))
  = cc + Z.of_nat (length (filter at_exit extra)).
Proof.
  unfold count_cars. cbn [car_counter].
  assert (Happ : forall q, cell_contents (mkGrid (placed grid_init ++ extra) i cc) q
                 = cell_contents grid_init q
                   ++ filter (fun a => pos_eqb (agent_pos a) q) extra).
  { intros q. unfold cell_contents. cbn [placed]. apply filter_app. }
  rewrite !Happ, !length_app, at_exit_count.
  rewrite !grid_init_exit_cells by (cbn; tauto).
  lia.
Qed.

(** X12.  On a cell inside the grid with no car yet, [add_car] places a
    car for exactly [flow - 1] of the 100 possible draws
    [rand = randint(1, 100)] when [1 <= flow <= 101]: the test is
    [flow > rand], so the chance is [(flow - 1) / 100] and a flow of 1
    never adds a car.  The agents already placed lie in the grid. *)
Theorem add_car_draws (g : GridModel) (d : direction) (x y flow : Z)
    (Hg : agents_in_grid g = true)
    (Hxy : in_grid (x, y) = true)
    (Hfree : existsb is_car (cell_contents g (x, y)) = false)
    (Hf : 1 <= flow <= 101) :
  length (filter (fun rand => Nat.ltb (length (placed g))
                                      (length (placed (add_car g d x y flow rand))))
                 (range 1 101))
  = Z.to_nat (flow - 1).
Proof.
  rewrite (filter_ext _ (fun r => r <? flow)).
  - unfold range. rewrite count_below. lia.
  - intros r. unfold add_car. rewrite Hfree.
    destruct (r <? flow).
    + unfold place_new. cbn [placed]. rewrite length_app. cbn [length].
      apply Nat.ltb_lt. lia.
    + apply Nat.ltb_irrefl.
Qed.

Lemma add_car_draws_witness :
  length (filter (fun rand => Nat.ltb (length (placed (mkGrid [] 0 0)))
                    (length (placed (add_car (mkGrid [] 0 0) east 0 10 30 rand))))
                 (range 1 101))
  = Z.to_nat (30 - 1).
Proof.
  apply add_car_draws; [reflexivity | reflexivity | reflexivity | lia].
Defined.

(** X13.  [add_car] never puts a second car on a cell: if no cell holds
    more than one car before the call, none does after it. *)
Theorem add_car_one_car_per_cell (g : GridModel) (d : direction) (x y flow rand : Z)
    (Hinv : forall p, (length (filter is_car (cell_contents g p)) <= 1)%nat)
    (p : Z * Z) :
  (length (filter is_car (cell_contents (add_car g d x y flow rand) p)) <= 1)%nat.
Proof.
  unfold add_car.
  destruct (rand <? flow); [|apply Hinv].
  destruct (existsb is_car (cell_contents g (x, y))) eqn:E; [apply Hinv|].
  rewrite cell_contents_place_new, filter_app, length_app.
  destruct (pos_eqb (x, y) p) eqn:P.
  - apply pos_eqb_true in P. subst p.
    rewrite (existsb_false_filter _ _ E). cbn. lia.
  - cbn [filter length]. rewrite Nat.add_0_r. apply Hinv.
Qed.

Lemma add_car_one_car_per_cell_witness :
  (length (filter is_car (cell_contents (add_car (mkGrid [] 0 0) east 0 10 30 5) (0, 10)%Z)) <= 1)%nat.
Proof.
  apply add_car_one_car_per_cell. intros p. cbn. lia.
Defined.
